(** * metalController.js: the admin request handlers of the Metal entity

    A shallow embedding of [src/controller/admin/metalController.js] and the
    properties of its twelve handlers.  The handlers are written in a small
    state-and-exception monad: the state carries the request object (one
    handler mutates [req.body]) and the trace of everything the handler did
    to the outside: calls to the collaborators ([validation], [ObjectId],
    the [Metal] constructor, [dbService], [deleteDependentService]) and
    responses sent through [res].

    The collaborators are not part of the file.  They are a parameter of
    every run, the [world]: a function from calls to outcomes, any value
    returned or any value thrown.  A handler makes each call at most once,
    so a function of the call says all a collaborator can do in one run.
    The response helpers of [res] are taken to return normally. *)

From Stdlib Require Import Ascii.
From stdpp Require Import gmap strings list fin_maps pretty.

Open Scope string_scope.

(** ** JavaScript values

    Request bodies, parameters, collaborator results and thrown values are
    JavaScript values.  Objects are finite maps from property names to
    values; arrays are lists.  Numbers are modelled by integers: the
    controller only tests numbers for truthiness and reads array lengths.
    The model is exact for the safe integers (magnitude below [2^53]), for
    strings of ASCII characters (one UTF-16 code unit each) and for plain
    objects, which have no [toString] or [valueOf] property of their
    own. *)

#[warnings="-register-all"]
Inductive value : Type :=
  | VUndef
  | VNull
  | VBool (b : bool)
  | VNum (n : Z)
  | VStr (s : string)
  | VArr (l : list value)
  | VObj (o : gmap string value).

Module JS.

(** [!!v]: every value is truthy except [undefined], [null], [false],
    [0] and the empty string. *)
Definition truthy (v : value) : bool :=
  match v with
  | VUndef | VNull => false
  | VBool b => b
  | VNum n => negb (n =? 0)%Z
  | VStr s => negb (String.eqb s EmptyString)
  | VArr _ | VObj _ => true
  end.

Definition nullish (v : value) : bool :=
  match v with
  | VUndef | VNull => true
  | _ => false
  end.

(** [Array.isArray(v)] *)
Definition isArray (v : value) : bool :=
  match v with
  | VArr _ => true
  | _ => false
  end.

(** [typeof v === 'object' && v !== null] *)
Definition isObjectNotNull (v : value) : bool :=
  match v with
  | VArr _ | VObj _ => true
  | _ => false
  end.

(** The name of the [i]-th index property, ["0"], ["1"], ... *)
Definition index_key (i : nat) : string := pretty i.

(** The characters of a string, each as a one-character string. *)
Fixpoint chars (s : string) : list value :=
  match s with
  | EmptyString => []
  | String c s' => VStr (String c EmptyString) :: chars s'
  end.

(** The properties of an array-like: its elements under their index. *)
Definition indexed (l : list value) : gmap string value :=
  list_to_map (imap (fun i v => (index_key i, v)) l).

(** [v[k]] on a value that is not [undefined] or [null].  An object
    answers with its own property; an array or a string with [length]
    and its elements; everything else with [undefined].  Properties
    inherited from the built-in prototypes are not modelled: the
    controller reads none of them. *)
Definition own (v : value) (k : string) : value :=
  match v with
  | VObj o => default VUndef (o !! k)
  | VArr l =>
      if String.eqb k "length" then VNum (Z.of_nat (length l))
      else default VUndef (indexed l !! k)
  | VStr s =>
      if String.eqb k "length" then VNum (Z.of_nat (String.length s))
      else default VUndef (indexed (chars s) !! k)
  | _ => VUndef
  end.

(** [{ ...v }]: the own enumerable properties of [v]; nothing for
    [undefined], [null], booleans and numbers. *)
Definition spread (v : value) : gmap string value :=
  match v with
  | VObj o => o
  | VArr l => indexed l
  | VStr s => indexed (chars s)
  | _ => ∅
  end.

(** [delete v[k]] on a value that is not [undefined] or [null]: only an
    object loses a property. *)
Definition remove (v : value) (k : string) : value :=
  match v with
  | VObj o => VObj (delete k o)
  | _ => v
  end.

(** [a < b] on numbers; the controller compares nothing but the length
    of an array with [1]. *)
Definition lt (a b : value) : bool :=
  match a, b with
  | VNum x, VNum y => (x <? y)%Z
  | _, _ => false
  end.

(** The string a template literal interpolates for [v], for the values
    the model is exact for: an integer is printed in full (JavaScript
    switches to exponent form from [1e21] on), and an object prints as a
    plain object does. *)
Fixpoint toString (v : value) : string :=
  match v with
  | VUndef => "undefined"
  | VNull => "null"
  | VBool true => "true"
  | VBool false => "false"
  | VNum n => pretty n
  | VStr s => s
  | VArr l =>
      let item (x : value) :=
        match x with
        | VUndef | VNull => EmptyString
        | _ => toString x
        end in
      String.concat "," (map item l)
  | VObj _ => "[object Object]"
  end.

End JS.

(** ** The request, the collaborators and the trace *)

(** The parts of the Express request the controller reads. *)
Record request := {
  body : value;     (* req.body *)
  params : value;   (* req.params *)
  user : value      (* req.user *)
}.

(** The validation keys exported by [utils/validation/metalValidation]. *)
Inductive schema := schemaKeys | updateSchemaKeys | findFilterKeys.

(** A call to a collaborator, with its arguments.  The [Metal] model that
    every [dbService] call receives first is left out; [modelSchema] says
    whether [Metal.schema.obj] is passed to [validateFilterWithJoi]. *)
Inductive call :=
  | validateParamsWithJoi (payload : value) (keys : schema)
  | validateFilterWithJoi (payload : value) (keys : schema) (modelSchema : bool)
  | ObjectId_isValid (id : value)
  | new_Metal (data : value)
  | dbService_create (data : value)
  | dbService_count (filter : value)
  | dbService_paginate (query options : value)
  | dbService_findOne (query options : value)
  | dbService_updateOne (query data : value)
  | dbService_updateMany (filter data : value)
  | deleteDependent_softDeleteMetal (query updateBody : value)
  | deleteDependent_countMetal (query : value)
  | deleteDependent_deleteMetal (query : value).

(** What a (possibly awaited) call comes back with. *)
Inductive outcome :=
  | Returns (v : value)
  | Throws (error : value).

(** The response helpers of [res]. *)
Inductive category :=
  | success
  | validationError
  | recordNotFound
  | badRequest
  | internalServerError.

Record response := Response {
  kind : category;
  payload : value       (* the argument of the helper, [undefined] if none *)
}.

Inductive event :=
  | Called (c : call) (o : outcome)
  | Responded (r : response).

(** The errors the runtime itself throws on the controller's expressions. *)
Inductive type_error :=
  | CannotRead (base : value) (key : string)     (* base[key], base nullish *)
  | CannotDelete (base : value) (key : string)   (* delete base[key] *)
  | NotIterable (v : value).                     (* [...v] *)

(** Everything outside the controller: how each collaborator answers a
    call, and the message text of the engine's type errors. *)
Record world := {
  answer : call -> outcome;
  type_error_message : type_error -> string
}.

Definition is_validation (c : call) : bool :=
  match c with
  | validateParamsWithJoi _ _ | validateFilterWithJoi _ _ _ => true
  | _ => false
  end.

Definition is_dbService (c : call) : bool :=
  match c with
  | dbService_create _ | dbService_count _ | dbService_paginate _ _
  | dbService_findOne _ _ | dbService_updateOne _ _
  | dbService_updateMany _ _ => true
  | _ => false
  end.

Definition is_deleteDependent (c : call) : bool :=
  match c with
  | deleteDependent_softDeleteMetal _ _ | deleteDependent_countMetal _
  | deleteDependent_deleteMetal _ => true
  | _ => false
  end.

(** The calls an event list makes, in order. *)
Definition calls (t : list event) : list call :=
  omap (fun e => match e with Called c _ => Some c | Responded _ => None end) t.

(** The responses an event list sends, in order. *)
Definition responses (t : list event) : list response :=
  omap (fun e => match e with Responded r => Some r | Called _ _ => None end) t.

(** No call to [dbService] or [deleteDependentService] was made. *)
Definition no_persistence (t : list event) : Prop :=
  Forall (fun c => is_dbService c = false /\ is_deleteDependent c = false) (calls t).

(** ** The handler monad *)

Record state := {
  req : request;
  trace : list event
}.

Inductive result (A : Type) :=
  | Done (a : A)
  | Raised (error : value).
Arguments Done {A} a.
Arguments Raised {A} error.

Definition M (A : Type) : Type := world -> state -> result A * state.

Definition ret {A} (a : A) : M A := fun _ s => (Done a, s).

Definition bind {A B} (m : M A) (k : A -> M B) : M B :=
  fun w s =>
    match m w s with
    | (Done a, s') => k a w s'
    | (Raised e, s') => (Raised e, s')
    end.

Definition raise {A} (e : value) : M A := fun _ s => (Raised e, s).

(** [try { m } catch (error) { h error }] *)
Definition try_catch {A} (m : M A) (h : value -> M A) : M A :=
  fun w s =>
    match m w s with
    | (Done a, s') => (Done a, s')
    | (Raised e, s') => h e w s'
    end.

Declare Scope js_scope.
Delimit Scope js_scope with js.
Notation "x <- m ;; k" := (bind m (fun x => k))
  (at level 100, m at next level, right associativity) : js_scope.
Notation "m ;; k" := (bind m (fun _ => k))
  (at level 100, right associativity) : js_scope.
Open Scope js_scope.

Definition record (e : event) (s : state) : state :=
  {| req := req s; trace := trace s ++ [e] |}.

(** The error object of a runtime type error. *)
Definition TypeError (w : world) (t : type_error) : value :=
  VObj {[ "message" := VStr (type_error_message w t) ]}.

Definition req_body : M value := fun _ s => (Done (body (req s)), s).
Definition req_params : M value := fun _ s => (Done (params (req s)), s).
Definition req_user : M value := fun _ s => (Done (user (req s)), s).

(** [v.k] *)
Definition get (v : value) (k : string) : M value :=
  fun w s =>
    if JS.nullish v then (Raised (TypeError w (CannotRead v k)), s)
    else (Done (JS.own v k), s).

(** [delete req.body[k]]: the request object itself is changed. *)
Definition delete_req_body (k : string) : M unit :=
  fun w s =>
    let b := body (req s) in
    if JS.nullish b then (Raised (TypeError w (CannotDelete b k)), s)
    else (Done tt,
          {| req := {| body := JS.remove b k; params := params (req s);
                       user := user (req s) |};
             trace := trace s |}).

(** [[...v]] *)
Definition iterate (v : value) : M (list value) :=
  fun w s =>
    match v with
    | VArr l => (Done l, s)
    | VStr str => (Done (JS.chars str), s)
    | _ => (Raised (TypeError w (NotIterable v)), s)
    end.

(** A call to a collaborator, awaited where the source awaits it. *)
Definition invoke (c : call) : M value :=
  fun w s =>
    match answer w c with
    | Returns v => (Done v, record (Called c (Returns v)) s)
    | Throws e => (Raised e, record (Called c (Throws e)) s)
    end.

(** [res.k(payload)]: the response is recorded, and the handler returns
    what the helper returns, modelled by the response itself. *)
Definition send (k : category) (p : value) : M response :=
  fun _ s => (Done (Response k p), record (Responded (Response k p)) s).

(** The body of a [for] loop over the elements of an array. *)
Fixpoint for_each (f : value -> M value) (l : list value) : M (list value) :=
  match l with
  | [] => ret []
  | x :: l' => y <- f x ;; ys <- for_each f l' ;; ret (y :: ys)
  end.

(** ** The handlers

    Every exported function is [async (req, res) => { try { ... } catch
    (error) { ... } }]; a handler is its [try] block and its [catch] block.
    Reading a property of a plain value has no effect, so an expression the
    source reads twice in a row ([req.body.data] in a test and again in its
    branch) is read through [get] where it can throw and reused after. *)

Record handler := {
  try_block : M response;
  catch_block : value -> M response
}.

Definition run_handler (h : handler) : M response :=
  try_catch (try_block h) (catch_block h).

(** The handler on a fresh request: what it returns (or throws), the
    request as it leaves it, and everything it did. *)
Definition run (h : handler) (w : world) (r : request) : result response * state :=
  run_handler h w {| req := r; trace := [] |}.

Definition obj1 (k : string) (v : value) : value := VObj {[ k := v ]}.

Definition addMetal : handler := {|
  try_block :=
    b <- req_body ;;
    let dataToCreate := JS.spread (if JS.truthy b then b else VObj ∅) in
    validateRequest <- invoke (validateParamsWithJoi (VObj dataToCreate) schemaKeys) ;;
    isValid <- get validateRequest "isValid" ;;
    if negb (JS.truthy isValid) then
      message <- get validateRequest "message" ;;
      send validationError
        (obj1 "message" (VStr ("Invalid values in parameters, " ++ JS.toString message)))
    else
      u <- req_user ;;
      id <- get u "id" ;;
      let dataToCreate := <["addedBy" := id]> dataToCreate in
      dataToCreate <- invoke (new_Metal (VObj dataToCreate)) ;;
      createdMetal <- invoke (dbService_create dataToCreate) ;;
      send success (obj1 "data" createdMetal);
  catch_block := fun error =>
    message <- get error "message" ;;
    send internalServerError (obj1 "message" message)
|}.

(** The body of the loop of [bulkInsertMetal]:
    [dataToCreate[i] = { ...dataToCreate[i], addedBy: req.user.id }]. *)
Definition with_addedBy (item : value) : M value :=
  u <- req_user ;;
  id <- get u "id" ;;
  ret (VObj (<["addedBy" := id]> (JS.spread item))).

Definition bulkInsertMetal : handler := {|
  try_block :=
    b <- req_body ;;
    reject <-
      (if JS.truthy b then
         data <- get b "data" ;;
         if negb (JS.isArray data) then ret true
         else len <- get data "length" ;; ret (JS.lt len (VNum 1))
       else ret false) ;;
    if reject : bool then send badRequest VUndef
    else
      data <- get b "data" ;;
      dataToCreate <- iterate data ;;
      dataToCreate <- for_each with_addedBy dataToCreate ;;
      createdMetals <- invoke (dbService_create (VArr dataToCreate)) ;;
      count <- (if JS.truthy createdMetals then get createdMetals "length"
                else ret (VNum 0)) ;;
      send success
        (obj1 "data" (obj1 "count" (if JS.truthy count then count else VNum 0)));
  catch_block := fun error =>
    message <- get error "message" ;;
    send internalServerError (obj1 "message" message)
|}.

Definition findAllMetal : handler := {|
  try_block :=
    b <- req_body ;;
    validateRequest <- invoke (validateFilterWithJoi b findFilterKeys true) ;;
    isValid <- get validateRequest "isValid" ;;
    if negb (JS.truthy isValid) then
      message <- get validateRequest "message" ;;
      send validationError (obj1 "message" (VStr (JS.toString message)))
    else
      q <- get b "query" ;;
      let query := if JS.isObjectNotNull q then JS.spread q else ∅ in
      isCountOnly <- get b "isCountOnly" ;;
      if JS.truthy isCountOnly then
        totalRecords <- invoke (dbService_count (VObj query)) ;;
        send success (obj1 "data" (obj1 "totalRecords" totalRecords))
      else
        o <- (if JS.truthy b then get b "options" else ret VUndef) ;;
        let options := if JS.isObjectNotNull o then JS.spread o else ∅ in
        foundMetals <- invoke (dbService_paginate (VObj query) (VObj options)) ;;
        empty <-
          (if negb (JS.truthy foundMetals) then ret true
           else
             data <- get foundMetals "data" ;;
             if negb (JS.truthy data) then ret true
             else len <- get data "length" ;; ret (negb (JS.truthy len))) ;;
        if empty : bool then send recordNotFound VUndef
        else send success (obj1 "data" foundMetals);
  catch_block := fun error =>
    message <- get error "message" ;;
    send internalServerError (obj1 "message" message)
|}.

Definition getMetal : handler := {|
  try_block :=
    p <- req_params ;;
    id <- get p "id" ;;
    valid <- invoke (ObjectId_isValid id) ;;
    if negb (JS.truthy valid) then
      send validationError (obj1 "message" (VStr "invalid objectId."))
    else
      let query := obj1 "_id" id in
      let options := VObj ∅ in
      foundMetal <- invoke (dbService_findOne query options) ;;
      if negb (JS.truthy foundMetal) then send recordNotFound VUndef
      else send success (obj1 "data" foundMetal);
  catch_block := fun error =>
    message <- get error "message" ;;
    send internalServerError (obj1 "message" message)
|}.

Definition getMetalCount : handler := {|
  try_block :=
    b <- req_body ;;
    validateRequest <- invoke (validateFilterWithJoi b findFilterKeys false) ;;
    isValid <- get validateRequest "isValid" ;;
    if negb (JS.truthy isValid) then
      message <- get validateRequest "message" ;;
      send validationError (obj1 "message" (VStr (JS.toString message)))
    else
      wh <- get b "where" ;;
      let where_ := if JS.isObjectNotNull wh then JS.spread wh else ∅ in
      countedMetal <- invoke (dbService_count (VObj where_)) ;;
      send success (obj1 "data" (obj1 "count" countedMetal));
  catch_block := fun error =>
    message <- get error "message" ;;
    send internalServerError (obj1 "message" message)
|}.

Definition updateMetal : handler := {|
  try_block :=
    b <- req_body ;;
    u <- req_user ;;
    uid <- get u "id" ;;
    let dataToUpdate := VObj (<["updatedBy" := uid]> (JS.spread b)) in
    validateRequest <- invoke (validateParamsWithJoi dataToUpdate updateSchemaKeys) ;;
    isValid <- get validateRequest "isValid" ;;
    if negb (JS.truthy isValid) then
      message <- get validateRequest "message" ;;
      send validationError
        (obj1 "message" (VStr ("Invalid values in parameters, " ++ JS.toString message)))
    else
      p <- req_params ;;
      id <- get p "id" ;;
      let query := obj1 "_id" id in
      updatedMetal <- invoke (dbService_updateOne query dataToUpdate) ;;
      if negb (JS.truthy updatedMetal) then send recordNotFound VUndef
      else send success (obj1 "data" updatedMetal);
  catch_block := fun error =>
    message <- get error "message" ;;
    send internalServerError (obj1 "message" message)
|}.

Definition bulkUpdateMetal : handler := {|
  try_block :=
    b <- req_body ;;
    f <- (if JS.truthy b then get b "filter" else ret VUndef) ;;
    let filter := if JS.truthy f then JS.spread f else ∅ in
    let dataToUpdate := delete "addedBy" (∅ : gmap string value) in
    data <- (if JS.truthy b then get b "data" else ret VUndef) ;;
    dataToUpdate <-
      (if JS.isObjectNotNull data then
         u <- req_user ;;
         uid <- get u "id" ;;
         ret (<["updatedBy" := uid]> (JS.spread data))
       else ret dataToUpdate) ;;
    updatedMetal <- invoke (dbService_updateMany (VObj filter) (VObj dataToUpdate)) ;;
    if negb (JS.truthy updatedMetal) then send recordNotFound VUndef
    else send success (obj1 "data" (obj1 "count" updatedMetal));
  catch_block := fun error =>
    message <- get error "message" ;;
    send internalServerError (obj1 "message" message)
|}.

Definition partialUpdateMetal : handler := {|
  try_block :=
    p <- req_params ;;
    id <- get p "id" ;;
    (* the response is sent and the handler goes on: no [return] here *)
    (if negb (JS.truthy id) then
       send badRequest
         (obj1 "message" (VStr "Insufficient request parameters! id is required.")) ;;
       ret tt
     else ret tt) ;;
    delete_req_body "addedBy" ;;
    b <- req_body ;;
    u <- req_user ;;
    uid <- get u "id" ;;
    let dataToUpdate := VObj (<["updatedBy" := uid]> (JS.spread b)) in
    validateRequest <- invoke (validateParamsWithJoi dataToUpdate updateSchemaKeys) ;;
    isValid <- get validateRequest "isValid" ;;
    if negb (JS.truthy isValid) then
      message <- get validateRequest "message" ;;
      send validationError
        (obj1 "message" (VStr ("Invalid values in parameters, " ++ JS.toString message)))
    else
      let query := obj1 "_id" id in
      updatedMetal <- invoke (dbService_updateOne query dataToUpdate) ;;
      if negb (JS.truthy updatedMetal) then send recordNotFound VUndef
      else send success (obj1 "data" updatedMetal);
  catch_block := fun error =>
    message <- get error "message" ;;
    send internalServerError (obj1 "message" message)
|}.

Definition softDeleteMetal : handler := {|
  try_block :=
    p <- req_params ;;
    id <- get p "id" ;;
    if negb (JS.truthy id) then
      send badRequest
        (obj1 "message" (VStr "Insufficient request parameters! id is required."))
    else
      let query := obj1 "_id" id in
      u <- req_user ;;
      uid <- get u "id" ;;
      let updateBody := VObj (<["updatedBy" := uid]> {[ "isDeleted" := VBool true ]}) in
      updatedMetal <- invoke (deleteDependent_softDeleteMetal query updateBody) ;;
      if negb (JS.truthy updatedMetal) then send recordNotFound VUndef
      else send success (obj1 "data" updatedMetal);
  catch_block := fun error =>
    message <- get error "message" ;;
    send internalServerError (obj1 "message" message)
|}.

Definition deleteMetal : handler := {|
  try_block :=
    p <- req_params ;;
    id <- get p "id" ;;
    if negb (JS.truthy id) then
      send badRequest
        (obj1 "message" (VStr "Insufficient request parameters! id is required."))
    else
      let query := obj1 "_id" id in
      b <- req_body ;;
      isWarning <- get b "isWarning" ;;
      deletedMetal <-
        (if JS.truthy isWarning then invoke (deleteDependent_countMetal query)
         else invoke (deleteDependent_deleteMetal query)) ;;
      if negb (JS.truthy deletedMetal) then send recordNotFound VUndef
      else send success (obj1 "data" deletedMetal);
  catch_block := fun error =>
    message <- get error "message" ;;
    send internalServerError (obj1 "message" message)
|}.

(** [!ids || !Array.isArray(ids) || ids.length < 1] *)
Definition no_ids (ids : value) : M bool :=
  if negb (JS.truthy ids) then ret true
  else if negb (JS.isArray ids) then ret true
  else len <- get ids "length" ;; ret (JS.lt len (VNum 1)).

Definition deleteManyMetal : handler := {|
  try_block :=
    b <- req_body ;;
    ids <- get b "ids" ;;
    reject <- no_ids ids ;;
    if reject : bool then send badRequest VUndef
    else
      let query := obj1 "_id" (obj1 "$in" ids) in
      isWarning <- get b "isWarning" ;;
      deletedMetal <-
        (if JS.truthy isWarning then invoke (deleteDependent_countMetal query)
         else invoke (deleteDependent_deleteMetal query)) ;;
      if negb (JS.truthy deletedMetal) then send recordNotFound VUndef
      else send success (obj1 "data" deletedMetal);
  catch_block := fun error =>
    message <- get error "message" ;;
    send internalServerError (obj1 "message" message)
|}.

Definition softDeleteManyMetal : handler := {|
  try_block :=
    b <- req_body ;;
    ids <- get b "ids" ;;
    reject <- no_ids ids ;;
    if reject : bool then send badRequest VUndef
    else
      let query := obj1 "_id" (obj1 "$in" ids) in
      u <- req_user ;;
      uid <- get u "id" ;;
      let updateBody := VObj (<["updatedBy" := uid]> {[ "isDeleted" := VBool true ]}) in
      updatedMetal <- invoke (deleteDependent_softDeleteMetal query updateBody) ;;
      if negb (JS.truthy updatedMetal) then send recordNotFound VUndef
      else send success (obj1 "data" updatedMetal);
  catch_block := fun error =>
    message <- get error "message" ;;
    send internalServerError (obj1 "message" message)
|}.

(** [module.exports] *)
Definition module_exports : list handler :=
  [ addMetal; bulkInsertMetal; findAllMetal; getMetal; getMetalCount;
    updateMetal; bulkUpdateMetal; partialUpdateMetal; softDeleteMetal;
    deleteMetal; deleteManyMetal; softDeleteManyMetal ].


(** ** Vocabulary of the properties *)



(** The handlers that take [req.params.id] and only test its presence. *)
Definition presence_checked_handlers : list handler := [ softDeleteMetal; deleteMetal ].

Definition unchecked_id_handlers : list handler :=
  [ updateMetal; partialUpdateMetal; softDeleteMetal; deleteMetal ].

(** The handlers that take their identifiers from [req.body.ids]. *)
Definition bulk_id_handlers : list handler := [ deleteManyMetal; softDeleteManyMetal ].

Definition bulk_array_handlers : list handler :=
  [ bulkInsertMetal; deleteManyMetal; softDeleteManyMetal ].

Definition is_ObjectId_check (c : call) : bool :=
  match c with
  | ObjectId_isValid _ => true
  | _ => false
  end.

Definition id_required : value :=
  obj1 "message" (VStr "Insufficient request parameters! id is required.").

(** The spec's words: the bulk array is present, an array, and not empty. *)
Definition nonempty_array (v : value) : bool :=
  match v with
  | VArr (_ :: _) => true
  | _ => false
  end.

(** The spec's words: the page has no document when the result is falsy or
    its [data] list is absent ([undefined] or [null]) or empty. *)
Definition no_document (found : value) : Prop :=
  JS.truthy found = false \/ JS.own found "data" = VUndef
  \/ JS.own found "data" = VNull \/ JS.own found "data" = VArr [].

Definition has_documents (found : value) : Prop :=
  exists x l, JS.own found "data" = VArr (x :: l).

(** The query [findAllMetal] hands to [dbService]: a copy of
    [req.body.query] when that is an object, the empty query otherwise. *)
Definition request_query (r : request) : gmap string value :=
  let q := JS.own (body r) "query" in
  if JS.isObjectNotNull q then JS.spread q else ∅.

(** What a delete handler answers with the result of a delete or count. *)
Definition found_or_not (v : value) : response :=
  if JS.truthy v then Response success (obj1 "data" v)
  else Response recordNotFound VUndef.

(** What the loop of [bulkInsertMetal] makes of an element. *)
Definition stamp (uid item : value) : value :=
  VObj (<["addedBy" := uid]> (JS.spread item)).

(** The [Metal] constructor keeps the [addedBy] it is given.  The model
    [model/metal] is not part of this file; the controller relies on its
    schema for the bookkeeping fields. *)
Definition Metal_keeps_addedBy (w : world) : Prop :=
  forall data doc,
    answer w (new_Metal data) = Returns doc ->
    JS.own doc "addedBy" = JS.own data "addedBy".

(** The index keys of an array-like are decimal numerals: a character that
    is no digit never starts one. *)
Definition not_a_digit (a : Ascii.ascii) : Prop := forall n, pretty_N_char n <> a.

(** ** Sample worlds and requests *)

(** Message texts in the style of V8.  No theorem depends on the text. *)
Definition sample_messages (t : type_error) : string :=
  match t with
  | CannotRead _ k => "Cannot read properties of undefined (reading '" ++ k ++ "')"
  | CannotDelete _ _ => "Cannot convert undefined or null to object"
  | NotIterable _ => "value is not iterable"
  end.

Definition sample_id : value := VStr "64b7f0c2a1d3e4f5a6b7c8d9".

Definition admin : value := obj1 "id" (VStr "admin-1").

Definition metal : value := obj1 "name" (VStr "gold").

Definition malformed_metal : value := obj1 "price" (VStr "free").

(** A client that claims somebody else added the metal. *)
Definition forged_metal : value :=
  VObj (<["addedBy" := VStr "somebody-else"]> {[ "name" := VStr "gold" ]}).


(** A database without documents: the identifier and the filter are valid,
    [findOne] finds nothing and [paginate] returns an empty page. *)
Definition empty_db : world := {|
  answer := fun c =>
    match c with
    | ObjectId_isValid _ => Returns (VBool true)
    | validateFilterWithJoi _ _ _ | validateParamsWithJoi _ _ =>
        Returns (obj1 "isValid" (VBool true))
    | dbService_findOne _ _ => Returns VNull
    | dbService_paginate _ _ => Returns (obj1 "data" (VArr []))
    | dbService_count _ => Returns (VNum 0)
    | _ => Returns VNull
    end;
  type_error_message := sample_messages
|}.

(** A validator that rejects every payload; [dbService.create] stores what
    it is given. *)
Definition rejecting : world := {|
  answer := fun c =>
    match c with
    | validateParamsWithJoi _ _ | validateFilterWithJoi _ _ _ =>
        Returns (VObj (<["message" := VStr "price must be a number"]>
                         {[ "isValid" := VBool false ]}))
    | dbService_create d => Returns d
    | _ => Returns VNull
    end;
  type_error_message := sample_messages
|}.


(** An identifier check that accepts nothing; validation passes and
    [updateOne] finds no document. *)
Definition picky_ids : world := {|
  answer := fun c =>
    match c with
    | ObjectId_isValid _ => Returns (VBool false)
    | validateParamsWithJoi _ _ | validateFilterWithJoi _ _ _ =>
        Returns (obj1 "isValid" (VBool true))
    | _ => Returns VNull
    end;
  type_error_message := sample_messages
|}.

(** A metal nothing depends on: the dependency count is [0]. *)
Definition no_dependents : world := {|
  answer := fun c =>
    match c with
    | deleteDependent_countMetal _ => Returns (VNum 0)
    | deleteDependent_deleteMetal _ => Returns (obj1 "deletedCount" (VNum 1))
    | _ => Returns VNull
    end;
  type_error_message := sample_messages
|}.

(** A metal with three dependent records. *)
Definition three_dependents : world := {|
  answer := fun c =>
    match c with
    | deleteDependent_countMetal _ => Returns (VNum 3)
    | deleteDependent_deleteMetal _ => Returns (obj1 "deletedCount" (VNum 1))
    | _ => Returns VNull
    end;
  type_error_message := sample_messages
|}.

(** A database that stores what it is given; the [Metal] constructor
    copies its argument. *)
Definition storing_db : world := {|
  answer := fun c =>
    match c with
    | validateParamsWithJoi _ _ | validateFilterWithJoi _ _ _ =>
        Returns (obj1 "isValid" (VBool true))
    | ObjectId_isValid _ => Returns (VBool true)
    | new_Metal d => Returns d
    | dbService_create d => Returns d
    | dbService_updateOne _ d => Returns d
    | dbService_updateMany _ _ => Returns (VNum 1)
    | _ => Returns VNull
    end;
  type_error_message := sample_messages
|}.

Definition lookup_request : request := {|
  body := obj1 "query" (obj1 "name" (VStr "gold"));
  params := obj1 "id" sample_id;
  user := admin
|}.

Definition count_request : request := {|
  body := VObj (<["isCountOnly" := VBool true]> {[ "query" := obj1 "name" (VStr "gold") ]});
  params := VObj ∅;
  user := admin
|}.

Definition add_request : request := {|
  body := malformed_metal;
  params := VObj ∅;
  user := admin
|}.

Definition bulk_request : request := {|
  body := obj1 "data" (VArr [malformed_metal]);
  params := VObj ∅;
  user := admin
|}.

Definition create_request : request := {|
  body := metal;
  params := VObj ∅;
  user := admin
|}.

(** A request without a body (no body parser ran). *)
Definition bodyless_request : request := {|
  body := VUndef;
  params := VObj ∅;
  user := admin
|}.

Definition bad_id_request : request := {|
  body := metal;
  params := obj1 "id" (VStr "not-an-object-id");
  user := admin
|}.

(** A request whose route has no [id]. *)
Definition no_id_request : request := {|
  body := VObj ∅;
  params := VObj ∅;
  user := admin
|}.

Definition empty_ids_request : request := {|
  body := obj1 "ids" (VArr []);
  params := VObj ∅;
  user := admin
|}.

Definition warning_request : request := {|
  body := obj1 "isWarning" (VBool true);
  params := obj1 "id" sample_id;
  user := admin
|}.

Definition forged_create : request := {|
  body := forged_metal;
  params := VObj ∅;
  user := admin
|}.

Definition forged_update : request := {|
  body := forged_metal;
  params := obj1 "id" sample_id;
  user := admin
|}.



(** ** Vocabulary of the further properties *)

(** A call that reads or writes the collection. *)
Definition is_persistence (c : call) : bool := is_dbService c || is_deleteDependent c.

(** The query of a call that addresses documents by a query. *)
Definition addressed (c : call) : option value :=
  match c with
  | dbService_findOne q _ | dbService_updateOne q _
  | deleteDependent_softDeleteMetal q _ | deleteDependent_countMetal q
  | deleteDependent_deleteMetal q => Some q
  | _ => None
  end.

(** The handlers that work on the document named by [req.params.id]. *)
Definition id_handlers : list handler :=
  [ getMetal; updateMetal; partialUpdateMetal; softDeleteMetal; deleteMetal ].

(** Every exported handler but [partialUpdateMetal]. *)
Definition returning_handlers : list handler :=
  [ addMetal; bulkInsertMetal; findAllMetal; getMetal; getMetalCount;
    updateMetal; bulkUpdateMetal; softDeleteMetal; deleteMetal;
    deleteManyMetal; softDeleteManyMetal ].

(** The handlers that stamp what they write with [req.user.id]. *)
Definition stamping_handlers : list handler :=
  [ addMetal; bulkInsertMetal; updateMetal; partialUpdateMetal;
    softDeleteMetal; softDeleteManyMetal ].

(** The handlers that never read [req.user]. *)
Definition anonymous_handlers : list handler :=
  [ findAllMetal; getMetal; getMetalCount; deleteMetal; deleteManyMetal ].

(** The request with another [req.user]. *)
Definition with_user (u : value) (r : request) : request :=
  {| body := body r; params := params r; user := u |}.

(** The update a soft delete writes. *)
Definition soft_delete_body (r : request) : value :=
  VObj (<["updatedBy" := JS.own (user r) "id"]> {[ "isDeleted" := VBool true ]}).

(** The filter [getMetalCount] hands to [dbService.count]. *)
Definition request_where (r : request) : gmap string value :=
  let wh := JS.own (body r) "where" in
  if JS.isObjectNotNull wh then JS.spread wh else ∅.

(** The response categories a handler can send. *)
Definition answers : list (handler * list category) :=
  [ (addMetal, [success; validationError; internalServerError]);
    (bulkInsertMetal, [success; badRequest; internalServerError]);
    (findAllMetal, [success; validationError; recordNotFound; internalServerError]);
    (getMetal, [success; validationError; recordNotFound; internalServerError]);
    (getMetalCount, [success; validationError; internalServerError]);
    (updateMetal, [success; validationError; recordNotFound; internalServerError]);
    (bulkUpdateMetal, [success; recordNotFound; internalServerError]);
    (partialUpdateMetal,
       [success; validationError; recordNotFound; badRequest; internalServerError]);
    (softDeleteMetal, [success; recordNotFound; badRequest; internalServerError]);
    (deleteMetal, [success; recordNotFound; badRequest; internalServerError]);
    (deleteManyMetal, [success; recordNotFound; badRequest; internalServerError]);
    (softDeleteManyMetal, [success; recordNotFound; badRequest; internalServerError]) ].

(** A request without an authenticated user. *)
Definition userless_request : request := {|
  body := metal;
  params := obj1 "id" sample_id;
  user := VUndef
|}.

Definition plain_delete_request : request := {|
  body := VObj ∅;
  params := obj1 "id" sample_id;
  user := admin
|}.

Definition ids_request : request := {|
  body := obj1 "ids" (VArr [sample_id]);
  params := VObj ∅;
  user := admin
|}.

(** A bulk update of every gold metal. *)
Definition bulk_update_request : request := {|
  body := VObj (<["filter" := obj1 "name" (VStr "gold")]>
                  {[ "data" := obj1 "price" (VNum 10) ]});
  params := VObj ∅;
  user := admin
|}.

Definition where_request : request := {|
  body := obj1 "where" (obj1 "name" (VStr "gold"));
  params := VObj ∅;
  user := admin
|}.

(** The request with another [req.body]. *)
Definition with_body (b : value) (r : request) : request :=
  {| body := b; params := params r; user := user r |}.

(** The handlers that validate parameters, and those that validate a
    filter. *)
Definition params_validating_handlers : list handler :=
  [ addMetal; updateMetal; partialUpdateMetal ].

Definition filter_validating_handlers : list handler := [ findAllMetal; getMetalCount ].

(** The options [findAllMetal] hands to [dbService.paginate]: a copy of
    [req.body.options] when that is an object, no options otherwise. *)
Definition request_options (r : request) : gmap string value :=
  let o := JS.own (body r) "options" in
  if JS.isObjectNotNull o then JS.spread o else ∅.





(** ** Reasoning about handlers *)

Arguments JS.own : simpl never.
Arguments JS.spread : simpl never.
Arguments JS.remove : simpl never.
Arguments JS.toString : simpl never.
Arguments obj1 : simpl never.
Arguments TypeError : simpl never.

Lemma nullish_TypeError w t : JS.nullish (TypeError w t) = false.
Proof. reflexivity. Qed.

Lemma own_obj1 k v : JS.own (obj1 k v) k = v.
Proof. unfold JS.own, obj1. by rewrite lookup_singleton_eq. Qed.

Lemma own_TypeError w t :
  JS.own (TypeError w t) "message" = VStr (type_error_message w t).
Proof. apply own_obj1. Qed.

Lemma own_nullish v k : JS.nullish v = true -> JS.own v k = VUndef.
Proof. by destruct v. Qed.

Lemma truthy_not_nullish v : JS.truthy v = true -> JS.nullish v = false.
Proof. by destruct v. Qed.

(** A falsy value has no property but [length] (of the empty string). *)
Lemma own_falsy v k : JS.truthy v = false -> k <> "length" -> JS.own v k = VUndef.
Proof.
  destruct v as [| |[]|n|s|l|o]; try done; cbn.
  intros Hs Hk. destruct s; [|done]. unfold JS.own.
  destruct (String.eqb_spec k "length"); done.
Qed.

(** Unfolds the monad down to nested matches on the answers of the world
    and on the tests of the handler. *)
Ltac unfold_m :=
  unfold no_ids in *;
  unfold run, run_handler, try_catch, bind, ret, raise, get, invoke, send,
    req_body, req_params, req_user, delete_req_body, iterate, record in *.

Ltac exec h :=
  unfold run, run_handler in *; cbn [try_block catch_block h] in *; unfold_m;
  cbn [req trace body params user fst snd] in *;
  rewrite ?nullish_TypeError, ?own_TypeError in *.

Ltac mem :=
  repeat match goal with
  | H : _ ∈ [] |- _ => by apply elem_of_nil in H
  | H : _ ∈ _ :: _ |- _ => apply elem_of_cons in H as [H|H]
  end.

Ltac bools :=
  repeat match goal with
  | H : negb _ = true |- _ => apply negb_true_iff in H
  | H : negb _ = false |- _ => apply negb_false_iff in H
  end.

(** A truthy value is not [undefined] or [null]; a falsy one has no [data]. *)
Ltac js_absurd :=
  try match goal with
  | H1 : JS.truthy ?v = true, H2 : JS.nullish ?v = true |- _ => by destruct v
  | H : JS.truthy ?v = false, Hd : JS.own ?v "data" = VArr _ |- _ =>
      by rewrite (own_falsy v "data" H) in Hd
  end.

Ltac cases :=
  repeat (case_match; simplify_eq/=); bools; mem; simplify_eq/=; js_absurd.

Lemma for_each_with_addedBy l w s :
  for_each with_addedBy l w s =
  match l with
  | [] => (Done [], s)
  | _ :: _ =>
      if JS.nullish (user (req s))
      then (Raised (TypeError w (CannotRead (user (req s)) "id")), s)
      else (Done (map (stamp (JS.own (user (req s)) "id")) l), s)
  end.
Proof.
  induction l as [|x l IH]; [done|].
  cbn [for_each]. unfold bind at 1. unfold with_addedBy at 1.
  unfold bind at 1 2, req_user, get.
  destruct (JS.nullish (user (req s))) eqn:Hu; [done|].
  unfold bind, ret in *. rewrite IH, ?Hu. by destruct l.
Qed.

Arguments for_each : simpl never.

Ltac exec_any :=
  unfold run, run_handler in *;
  cbn [try_block catch_block addMetal bulkInsertMetal findAllMetal getMetal
       getMetalCount updateMetal bulkUpdateMetal partialUpdateMetal
       softDeleteMetal deleteMetal deleteManyMetal softDeleteManyMetal] in *;
  unfold_m; cbn [req trace body params user fst snd] in *;
  rewrite ?nullish_TypeError, ?own_TypeError in *.


Ltac pick H := repeat (apply elem_of_cons in H as [->|H]); [..|by apply elem_of_nil in H].

(** Case analysis on the run recorded in [H] alone, innermost test first. *)
Ltac split_on H :=
  repeat (rewrite ?for_each_with_addedBy in H;
          match type of H with
          | context [match ?x with _ => _ end] =>
              lazymatch x with
              | context [match _ with _ => _ end] => fail
              | _ => destruct x eqn:?; simplify_eq/=
              end
          end).

(** Runs the goal along the tests already decided in the context. *)
Ltac replay :=
  repeat match goal with
  | |- context [for_each with_addedBy _ _ _] => rewrite for_each_with_addedBy; simpl
  | E : ?x = _ |- context [match ?x with _ => _ end] => rewrite E; simpl
  | E : ?x = _ |- context [match negb ?x with _ => _ end] => rewrite E; simpl
  end.

Lemma pretty_N_go_head x s a s' :
  not_a_digit a -> pretty_N_go x s = String a s' -> exists s'', s = String a s''.
Proof.
  intros Ha. revert s.
  induction (N.lt_wf_0 x) as [x _ IH]; intros s Hs.
  destruct (decide (x = 0)%N) as [->|Hx].
  - rewrite pretty_N_go_0 in Hs. eauto.
  - rewrite pretty_N_go_step in Hs by lia.
    apply IH in Hs as [s'' Hs]; [|apply N.div_lt; lia].
    exfalso. injection Hs as Hc _. by eapply Ha.
Qed.

Lemma index_key_head i a s : not_a_digit a -> JS.index_key i <> String a s.
Proof.
  intros Ha Hi. unfold JS.index_key, pretty, pretty_nat, pretty, pretty_N in Hi.
  case_decide.
  - injection Hi as Hc _. by apply (Ha 0%N).
  - apply pretty_N_go_head in Hi as [? ?]; done.
Qed.

Lemma indexed_letter l a s : not_a_digit a -> JS.indexed l !! String a s = None.
Proof.
  intros Ha. unfold JS.indexed. apply not_elem_of_list_to_map_1.
  intros Hin. apply list_elem_of_fmap in Hin as [[k v] [Hk Hin]].
  apply elem_of_lookup_imap in Hin as (i & x & Heq & _).
  cbn in Hk. simplify_eq. by eapply index_key_head.
Qed.

Lemma not_a_digit_a : not_a_digit "a"%char.
Proof. intros n. unfold pretty_N_char. by repeat case_match. Qed.

(** ** Lookups that find nothing *)

(** C5: when [getMetal] is given an identifier that [ObjectId.isValid]
    accepts and [dbService.findOne] returns a falsy value, the answer is
    [recordNotFound]; when it returns a document, the answer is [success]
    with the document.  When [findAllMetal] is given a body whose filter
    the validator accepts and whose [isCountOnly] is falsy, and
    [dbService.paginate] returns a result that is falsy or whose [data]
    list is absent or empty, the answer is [recordNotFound]; when [data]
    is a non-empty list, the answer is [success] with the page.  The two
    categories are distinct. *)
Theorem lookup_not_found_distinct (w : world) (r : request) :
  (forall valid found,
     JS.nullish (params r) = false ->
     answer w (ObjectId_isValid (JS.own (params r) "id")) = Returns valid ->
     JS.truthy valid = true ->
     answer w (dbService_findOne (obj1 "_id" (JS.own (params r) "id")) (VObj ∅))
       = Returns found ->
     (run getMetal w r).1 =
       Done (if JS.truthy found then Response success (obj1 "data" found)
             else Response recordNotFound VUndef))
  /\ (forall accepted found,
     answer w (validateFilterWithJoi (body r) findFilterKeys true) = Returns accepted ->
     JS.truthy (JS.own accepted "isValid") = true ->
     JS.nullish (body r) = false ->
     JS.truthy (JS.own (body r) "isCountOnly") = false ->
     answer w (dbService_paginate (VObj (request_query r)) (VObj (request_options r)))
       = Returns found ->
     (no_document found ->
        (run findAllMetal w r).1 = Done (Response recordNotFound VUndef))
     /\ (has_documents found ->
        (run findAllMetal w r).1 = Done (Response success (obj1 "data" found))))
  /\ recordNotFound <> success.
Proof.
  split; [|split; [|done]].
  - intros valid found Hp Hv Ht Hf. exec_any. replay.
    by destruct (JS.truthy found).
  - intros accepted found Hv Hok Hb Hc Hf.
    assert (Hn : JS.nullish accepted = false).
    { destruct (JS.nullish accepted) eqn:Hn; [|done].
      by rewrite (own_nullish _ _ Hn) in Hok. }
    assert (Ho : (if JS.truthy (body r) then JS.own (body r) "options" else VUndef)
                 = JS.own (body r) "options").
    { destruct (JS.truthy (body r)) eqn:Ht; [done|]. by rewrite own_falsy. }
    unfold request_query, request_options in Hf.
    unfold no_document, has_documents.
    exec_any. replay.
    destruct (JS.truthy (body r)) eqn:Ht; simpl.
    all: rewrite ?(own_falsy (body r) "options" Ht) in * by done; simpl in *.
    all: rewrite Hf; simpl.
    all: split; [intros [Hd|[Hd|[Hd|Hd]]] | intros (x & l & Hd)].
    all: cases; rewrite ?Hd in *; try done; js_absurd; try congruence.
Qed.

Lemma lookup_not_found_distinct_witness :
  (run getMetal empty_db lookup_request).1 = Done (Response recordNotFound VUndef)
  /\ (run findAllMetal empty_db lookup_request).1 = Done (Response recordNotFound VUndef).
Proof.
  destruct (lookup_not_found_distinct empty_db lookup_request) as (Hget & Hfind & _).
  split.
  - exact (Hget (VBool true) VNull eq_refl eq_refl eq_refl eq_refl).
  - destruct (Hfind (obj1 "isValid" (VBool true)) (obj1 "data" (VArr []))
                eq_refl eq_refl eq_refl eq_refl eq_refl) as [Hnone _].
    apply Hnone. right. right. right. reflexivity.
Defined.

(** ** Counting instead of paginating *)

(** C7: when the filter of a [findAllMetal] request is accepted and
    [req.body.isCountOnly] is truthy, the only [dbService] call is [count]
    with the request's query, [paginate] is not called, and the count that
    comes back is returned as [success] with [{ totalRecords }]; when
    [isCountOnly] is falsy, [count] is not called and [paginate] is called
    with the request's query. *)
Theorem count_only_skips_paginate (w : world) (r : request) (accepted : value) :
  answer w (validateFilterWithJoi (body r) findFilterKeys true) = Returns accepted ->
  JS.truthy (JS.own accepted "isValid") = true ->
  JS.nullish (body r) = false ->
  (JS.truthy (JS.own (body r) "isCountOnly") = true ->
     calls (trace (run findAllMetal w r).2) =
       [ validateFilterWithJoi (body r) findFilterKeys true;
         dbService_count (VObj (request_query r)) ]
     /\ forall totalRecords,
          answer w (dbService_count (VObj (request_query r))) = Returns totalRecords ->
          (run findAllMetal w r).1 =
            Done (Response success (obj1 "data" (obj1 "totalRecords" totalRecords))))
  /\ (JS.truthy (JS.own (body r) "isCountOnly") = false ->
     exists options,
       calls (trace (run findAllMetal w r).2) =
         [ validateFilterWithJoi (body r) findFilterKeys true;
           dbService_paginate (VObj (request_query r)) (VObj options) ])
  /\ (forall o, JS.own (body r) "query" = VObj o -> request_query r = o).
Proof.
  intros Hv Hok Hb. unfold request_query.
  split; [|split].
  - intros Hc. exec findAllMetal. rewrite Hv, Hb, Hc. cbn.
    destruct (JS.nullish accepted) eqn:Hn.
    { by rewrite (own_nullish _ _ Hn) in Hok. }
    rewrite Hok. cbn. split.
    + by cases.
    + intros n Hn'. by rewrite Hn'.
  - intros Hc. exec findAllMetal. rewrite Hv, Hb, Hc. cbn.
    destruct (JS.nullish accepted) eqn:Hn.
    { by rewrite (own_nullish _ _ Hn) in Hok. }
    rewrite Hok. cbn. cases; eauto.
  - intros o Ho. by rewrite Ho.
Qed.

Lemma count_only_skips_paginate_witness :
  calls (trace (run findAllMetal empty_db count_request).2) =
    [ validateFilterWithJoi (body count_request) findFilterKeys true;
      dbService_count (VObj (request_query count_request)) ]
  /\ (run findAllMetal empty_db count_request).1 =
       Done (Response success (obj1 "data" (obj1 "totalRecords" (VNum 0)))).
Proof.
  destruct (count_only_skips_paginate empty_db count_request
              (obj1 "isValid" (VBool true))) as (Hcount & _ & _);
    [reflexivity | reflexivity | reflexivity |].
  destruct Hcount as [Hcalls Hres]; [reflexivity|].
  split; [exact Hcalls | apply Hres; reflexivity].
Defined.

(** ** Validation before persistence *)




(** ** Thrown errors *)





(** ** Identifier checks *)

(** C3, as the code has it: [getMetal] answers [validationError] and makes
    no [dbService] call when [ObjectId.isValid] rejects [req.params.id];
    [softDeleteMetal] and [deleteMetal] answer [badRequest] and make no call
    at all when [req.params.id] is absent (falsy); and [updateMetal],
    [partialUpdateMetal], [softDeleteMetal] and [deleteMetal] never ask
    [ObjectId.isValid]. *)
Theorem identifier_checks :
  (forall w r verdict,
     JS.nullish (params r) = false ->
     answer w (ObjectId_isValid (JS.own (params r) "id")) = Returns verdict ->
     JS.truthy verdict = false ->
     (run getMetal w r).1 =
       Done (Response validationError (obj1 "message" (VStr "invalid objectId.")))
     /\ no_persistence (trace (run getMetal w r).2))
  /\ (forall h w r,
     h ∈ presence_checked_handlers ->
     JS.nullish (params r) = false ->
     JS.truthy (JS.own (params r) "id") = false ->
     run h w r =
       (Done (Response badRequest id_required),
        {| req := r; trace := [Responded (Response badRequest id_required)] |}))
  /\ (forall h w r,
     h ∈ unchecked_id_handlers ->
     Forall (fun c => is_ObjectId_check c = false) (calls (trace (run h w r).2))).
Proof.
  split; [|split].
  - intros w r verdict Hp Hv Hf. exec_any. rewrite Hp, Hv. cbn. rewrite Hf. cbn.
    split; [done | repeat constructor].
  - intros h w r Hh Hp Hf. unfold presence_checked_handlers in Hh.
    pick Hh; exec_any; by rewrite Hp, Hf.
  - intros h w r Hh. unfold unchecked_id_handlers in Hh.
    pick Hh; exec_any; cases; repeat constructor.
Qed.

Lemma identifier_checks_witness :
  (run getMetal picky_ids bad_id_request).1 =
    Done (Response validationError (obj1 "message" (VStr "invalid objectId.")))
  /\ run deleteMetal picky_ids no_id_request =
       (Done (Response badRequest id_required),
        {| req := no_id_request;
           trace := [Responded (Response badRequest id_required)] |}).
Proof.
  destruct identifier_checks as (Hget & Hpresent & _). split.
  - apply (Hget picky_ids bad_id_request (VBool false)); reflexivity.
  - apply (Hpresent deleteMetal picky_ids no_id_request); try reflexivity.
    unfold presence_checked_handlers. repeat constructor.
Defined.

(** C3 as stated fails for [updateMetal]: an identifier that
    [ObjectId.isValid] rejects goes to [dbService.updateOne] unchecked. *)
Lemma updateMetal_ignores_invalid_id :
  answer picky_ids (ObjectId_isValid (JS.own (params bad_id_request) "id")) =
    Returns (VBool false)
  /\ run updateMetal picky_ids bad_id_request =
       (Done (Response recordNotFound VUndef),
        {| req := bad_id_request;
           trace :=
             [ Called (validateParamsWithJoi
                         (VObj (<["updatedBy" := VStr "admin-1"]>
                                  {[ "name" := VStr "gold" ]}))
                         updateSchemaKeys)
                      (Returns (obj1 "isValid" (VBool true)));
               Called (dbService_updateOne
                         (obj1 "_id" (VStr "not-an-object-id"))
                         (VObj (<["updatedBy" := VStr "admin-1"]>
                                  {[ "name" := VStr "gold" ]})))
                      (Returns VNull);
               Responded (Response recordNotFound VUndef) ] |})
  /\ ~ no_persistence (trace (run updateMetal picky_ids bad_id_request).2).
Proof.
  split; [reflexivity|]. split; [vm_compute; reflexivity|].
  intros Hno. vm_compute in Hno.
  apply Forall_cons in Hno as [_ Hno]. apply Forall_cons in Hno as [[Hdb _] _].
  discriminate Hdb.
Qed.

(** ** Bulk inputs *)

(** C4, as the code has it: when the request has a body ([req.body] is not
    [undefined] or [null]; truthy for [bulkInsertMetal]) and the bulk array
    is absent, not an array, or empty, the handler answers [badRequest]
    and does nothing else; and a request without a body makes no call to
    any collaborator either. *)
Theorem empty_bulk_input_rejected :
  (forall h w r,
     h ∈ bulk_id_handlers ->
     JS.nullish (body r) = false ->
     nonempty_array (JS.own (body r) "ids") = false ->
     run h w r =
       (Done (Response badRequest VUndef),
        {| req := r; trace := [Responded (Response badRequest VUndef)] |}))
  /\ (forall w r,
     JS.truthy (body r) = true ->
     nonempty_array (JS.own (body r) "data") = false ->
     run bulkInsertMetal w r =
       (Done (Response badRequest VUndef),
        {| req := r; trace := [Responded (Response badRequest VUndef)] |}))
  /\ (forall h w r,
     h ∈ bulk_array_handlers ->
     JS.truthy (body r) = false ->
     calls (trace (run h w r).2) = []).
Proof.
  split; [|split].
  - intros h w r Hh Hb Hids. unfold bulk_id_handlers in Hh.
    pick Hh; exec_any; rewrite Hb.
    all: destruct (JS.own (body r) "ids") as [| |[]|n|s|[|x l]|]; try done.
    all: cbn; first [by destruct (n =? 0)%Z | by destruct (String.eqb s EmptyString)].
  - intros w r Hb Hdata. exec_any. rewrite Hb.
    rewrite (truthy_not_nullish _ Hb).
    by destruct (JS.own (body r) "data") as [| |[]|n|s|[|x l]|].
  - intros h w r Hh Hb. unfold bulk_array_handlers in Hh.
    pick Hh; exec_any; rewrite ?Hb.
    + destruct (JS.nullish (body r)) eqn:Hn; [done|].
      rewrite (own_falsy _ "data" Hb); done.
    + destruct (JS.nullish (body r)) eqn:Hn; [done|].
      rewrite (own_falsy _ "ids" Hb); done.
    + destruct (JS.nullish (body r)) eqn:Hn; [done|].
      rewrite (own_falsy _ "ids" Hb); done.
Qed.

Lemma empty_bulk_input_rejected_witness :
  run deleteManyMetal empty_db empty_ids_request =
    (Done (Response badRequest VUndef),
     {| req := empty_ids_request;
        trace := [Responded (Response badRequest VUndef)] |})
  /\ calls (trace (run bulkInsertMetal empty_db bodyless_request).2) = [].
Proof.
  destruct empty_bulk_input_rejected as (Hids & _ & Hnone). split.
  - apply (Hids deleteManyMetal empty_db empty_ids_request); try reflexivity.
    unfold bulk_id_handlers. repeat constructor.
  - apply (Hnone bulkInsertMetal empty_db bodyless_request); try reflexivity.
    unfold bulk_array_handlers. repeat constructor.
Defined.

(** C4 as stated fails when [req.body] itself is absent: reading the bulk
    array throws, and the answer is [internalServerError], not
    [badRequest]. *)
Lemma bulkInsertMetal_without_body :
  nonempty_array VUndef = false
  /\ run bulkInsertMetal empty_db bodyless_request =
       (let resp :=
          Response internalServerError
            (obj1 "message" (VStr (sample_messages (CannotRead VUndef "data")))) in
        (Done resp, {| req := bodyless_request; trace := [Responded resp] |}))
  /\ kind (Response internalServerError
             (obj1 "message" (VStr (sample_messages (CannotRead VUndef "data")))))
     <> badRequest.
Proof. split; [reflexivity|]. split; [vm_compute; reflexivity | discriminate]. Qed.

(** ** Deleting with a warning *)

(** The length of a non-empty array is not below [1]. *)
Lemma length_not_lt_1 (n : nat) : (Z.of_nat (S n) <? 1)%Z = false.
Proof. apply Z.ltb_ge. lia. Qed.

(** C6, as the code has it: when [req.body.isWarning] is truthy and the
    identifier ([req.params.id] for [deleteMetal], a non-empty array
    [req.body.ids] for [deleteManyMetal]) is present, the only call the
    handler makes is [deleteDependentService.countMetal]:
    [deleteDependentService.deleteMetal] is not called.  The count that
    comes back is returned in a [success] response when it is truthy and
    answered with [recordNotFound] when it is falsy. *)
Theorem warning_only_counts :
  (forall w r,
     JS.truthy (JS.own (params r) "id") = true ->
     JS.truthy (JS.own (body r) "isWarning") = true ->
     let query := obj1 "_id" (JS.own (params r) "id") in
     calls (trace (run deleteMetal w r).2) = [deleteDependent_countMetal query]
     /\ forall n, answer w (deleteDependent_countMetal query) = Returns n ->
          (run deleteMetal w r).1 = Done (found_or_not n))
  /\ (forall w r,
     nonempty_array (JS.own (body r) "ids") = true ->
     JS.truthy (JS.own (body r) "isWarning") = true ->
     let query := obj1 "_id" (obj1 "$in" (JS.own (body r) "ids")) in
     calls (trace (run deleteManyMetal w r).2) = [deleteDependent_countMetal query]
     /\ forall n, answer w (deleteDependent_countMetal query) = Returns n ->
          (run deleteManyMetal w r).1 = Done (found_or_not n)).
Proof.
  split.
  - intros w r Hid Hw query. subst query.
    assert (Hp : JS.nullish (params r) = false).
    { destruct (JS.nullish (params r)) eqn:Hn; [|done].
      by rewrite (own_nullish _ _ Hn) in Hid. }
    assert (Hb : JS.nullish (body r) = false).
    { destruct (JS.nullish (body r)) eqn:Hn; [|done].
      by rewrite (own_nullish _ _ Hn) in Hw. }
    exec_any. replay. unfold found_or_not. split.
    + by cases.
    + intros n Hn. rewrite Hn. cbn. by destruct (JS.truthy n).
  - intros w r Hids Hw query. subst query.
    assert (Hb : JS.nullish (body r) = false).
    { destruct (JS.nullish (body r)) eqn:Hn; [|done].
      by rewrite (own_nullish _ _ Hn) in Hw. }
    destruct (JS.own (body r) "ids") as [| | | | |[|x l]|] eqn:Hi; try done.
    exec_any. replay. rewrite Hi. simpl. rewrite length_not_lt_1. replay.
    unfold found_or_not. split.
    + by cases.
    + intros n Hn. rewrite Hn. cbn. by destruct (JS.truthy n).
Qed.

Lemma warning_only_counts_witness :
  calls (trace (run deleteMetal three_dependents warning_request).2) =
    [deleteDependent_countMetal (obj1 "_id" sample_id)]
  /\ (run deleteMetal three_dependents warning_request).1 =
       Done (Response success (obj1 "data" (VNum 3))).
Proof.
  destruct warning_only_counts as [Hone _].
  destruct (Hone three_dependents warning_request eq_refl eq_refl) as [Hcalls Hres].
  split; [exact Hcalls | exact (Hres (VNum 3) eq_refl)].
Defined.

(** C6 as stated fails when nothing depends on the metal: the count [0] is
    falsy, and the answer is [recordNotFound], not a [success] response
    with the count. *)
Lemma deleteMetal_warning_zero_count :
  JS.truthy (JS.own (body warning_request) "isWarning") = true
  /\ run deleteMetal no_dependents warning_request =
       (Done (Response recordNotFound VUndef),
        {| req := warning_request;
           trace :=
             [ Called (deleteDependent_countMetal (obj1 "_id" sample_id))
                      (Returns (VNum 0));
               Responded (Response recordNotFound VUndef) ] |})
  /\ kind (Response recordNotFound VUndef) <> success.
Proof. split; [reflexivity|]. split; [vm_compute; reflexivity | discriminate]. Qed.

(** ** Bookkeeping fields *)

Lemma own_stamp uid item : JS.own (stamp uid item) "addedBy" = uid.
Proof. unfold stamp, JS.own. by rewrite lookup_insert_eq. Qed.

Lemma own_insert k v (o : gmap string value) : JS.own (VObj (<[k := v]> o)) k = v.
Proof. unfold JS.own. by rewrite lookup_insert_eq. Qed.

(** C9: every payload [addMetal] hands to the [Metal] constructor has
    [addedBy] equal to [req.user.id], and what it hands to
    [dbService.create] is the document the constructor returned for that
    payload, so that document has [addedBy] equal to [req.user.id] as long
    as the constructor keeps the field; every document of the array
    [bulkInsertMetal] hands to [dbService.create] has [addedBy] equal to
    [req.user.id], one document per element of [req.body.data].  Whatever
    [addedBy] the client sent is overwritten. *)
Theorem created_documents_carry_addedBy (w : world) (r : request) :
  (forall data o,
     Called (new_Metal data) o ∈ trace (run addMetal w r).2 ->
     JS.own data "addedBy" = JS.own (user r) "id")
  /\ (Metal_keeps_addedBy w ->
      forall doc o,
        Called (dbService_create doc) o ∈ trace (run addMetal w r).2 ->
        JS.own doc "addedBy" = JS.own (user r) "id")
  /\ (forall docs o,
        Called (dbService_create docs) o ∈ trace (run bulkInsertMetal w r).2 ->
        exists items created,
          JS.own (body r) "data" = VArr items
          /\ docs = VArr created
          /\ length created = length items
          /\ Forall (fun doc => JS.own doc "addedBy" = JS.own (user r) "id") created).
Proof.
  split; [|split].
  - intros data o Hin. exec_any. split_on Hin; mem; simplify_eq.
    all: apply own_insert.
  - intros Hkeep doc o Hin. unfold Metal_keeps_addedBy in Hkeep.
    exec_any. split_on Hin; mem; simplify_eq.
    all: match goal with
         | H : answer _ (new_Metal _) = Returns _ |- _ =>
             rewrite (Hkeep _ _ H); apply own_insert
         end.
  - intros docs o Hin. exec_any. split_on Hin; mem; simplify_eq.
    all: try match goal with
         | Hf : JS.truthy ?b = false, Hd : JS.own ?b "data" = _ |- _ =>
             by rewrite (own_falsy b "data" Hf) in Hd
         end.
    all: match goal with
         | H : JS.own _ "data" = VArr ?l |- _ =>
             exists l, (map (stamp (JS.own (user r) "id")) l)
         end.
    all: split; [done|]; split; [done|]; split; [by rewrite length_map|].
    all: apply Forall_map, Forall_true; intros; apply own_stamp.
Qed.

Lemma created_documents_carry_addedBy_witness :
  JS.own forged_metal "addedBy" = VStr "somebody-else"
  /\ JS.own (VObj (<["addedBy" := VStr "admin-1"]> {[ "name" := VStr "gold" ]})) "addedBy"
     = JS.own (user forged_create) "id".
Proof.
  split; [reflexivity|].
  destruct (created_documents_carry_addedBy storing_db forged_create) as (_ & Hdoc & _).
  apply (Hdoc ltac:(intros data doc Hnew; cbn in Hnew; by simplify_eq)
           (VObj (<["addedBy" := VStr "admin-1"]> {[ "name" := VStr "gold" ]}))
           (Returns (VObj (<["addedBy" := VStr "admin-1"]> {[ "name" := VStr "gold" ]})))).
  vm_compute. repeat constructor.
Defined.

Lemma own_insert_ne k k' v (o : gmap string value) :
  k <> k' -> JS.own (VObj (<[k := v]> o)) k' = default VUndef (o !! k').
Proof. intros Hk. unfold JS.own. by rewrite lookup_insert_ne. Qed.

Lemma spread_remove_addedBy b : JS.spread (JS.remove b "addedBy") !! "addedBy" = None.
Proof.
  destruct b; unfold JS.spread, JS.remove; try apply lookup_empty.
  - apply indexed_letter, not_a_digit_a.
  - apply indexed_letter, not_a_digit_a.
  - apply lookup_delete_eq.
Qed.

(** C10: the update document [partialUpdateMetal] hands to
    [dbService.updateOne] never has an [addedBy] field (it was deleted from
    [req.body], which leaves the handler without it) and always has
    [updatedBy] equal to [req.user.id]; the update documents that
    [updateMetal] and [bulkUpdateMetal] build keep the [addedBy] the client
    sent. *)
Theorem partial_update_drops_addedBy (w : world) (r : request) :
  (forall query data o,
     Called (dbService_updateOne query data) o ∈ trace (run partialUpdateMetal w r).2 ->
     exists fields,
       data = VObj fields
       /\ fields !! "addedBy" = None
       /\ fields !! "updatedBy" = Some (JS.own (user r) "id")
       /\ JS.spread (body (req (run partialUpdateMetal w r).2)) !! "addedBy" = None)
  /\ (forall query data o fields addedBy,
     Called (dbService_updateOne query data) o ∈ trace (run updateMetal w r).2 ->
     body r = VObj fields ->
     fields !! "addedBy" = Some addedBy ->
     JS.own data "addedBy" = addedBy)
  /\ (forall filter data o fields addedBy,
     Called (dbService_updateMany filter data) o ∈ trace (run bulkUpdateMetal w r).2 ->
     JS.own (body r) "data" = VObj fields ->
     fields !! "addedBy" = Some addedBy ->
     JS.own data "addedBy" = addedBy).
Proof.
  split; [|split].
  - intros query data o Hin. exec_any. split_on Hin; mem; simplify_eq.
    all: eexists; split; [reflexivity|].
    all: split; [rewrite lookup_insert_ne by done; apply spread_remove_addedBy|].
    all: split; [apply lookup_insert_eq | apply spread_remove_addedBy].
  - intros query data o fields addedBy Hin Hb Ha. exec_any. rewrite Hb in *.
    split_on Hin; mem; simplify_eq.
    all: rewrite own_insert_ne by done; unfold JS.spread; by rewrite Ha.
  - intros filter data o fields addedBy Hin Hb Ha. exec_any.
    split_on Hin; mem; simplify_eq.
    all: try match goal with
         | Hf : JS.truthy ?b = false, Hd : JS.own ?b "data" = _ |- _ =>
             by rewrite (own_falsy b "data" Hf) in Hd
         end.
    all: rewrite ?Hb in *; try done.
    all: rewrite own_insert_ne by done; unfold JS.spread; by rewrite Ha.
Qed.

Lemma partial_update_drops_addedBy_witness :
  (exists fields,
     VObj (<["updatedBy" := VStr "admin-1"]> {[ "name" := VStr "gold" ]}) = VObj fields
     /\ fields !! "addedBy" = None
     /\ fields !! "updatedBy" = Some (JS.own (user forged_update) "id")
     /\ JS.spread (body (req (run partialUpdateMetal storing_db forged_update).2))
          !! "addedBy" = None)
  /\ JS.own (VObj (<["updatedBy" := VStr "admin-1"]> (JS.spread forged_metal))) "addedBy"
     = VStr "somebody-else".
Proof.
  destruct (partial_update_drops_addedBy storing_db forged_update)
    as (Hpartial & Hupdate & _).
  split.
  - apply (Hpartial (obj1 "_id" sample_id)
             (VObj (<["updatedBy" := VStr "admin-1"]> {[ "name" := VStr "gold" ]}))
             (Returns (VObj (<["updatedBy" := VStr "admin-1"]> {[ "name" := VStr "gold" ]})))).
    vm_compute. repeat constructor.
  - apply (Hupdate (obj1 "_id" sample_id)
             (VObj (<["updatedBy" := VStr "admin-1"]> (JS.spread forged_metal)))
             (Returns (VObj (<["updatedBy" := VStr "admin-1"]> (JS.spread forged_metal))))
             (<["addedBy" := VStr "somebody-else"]> {[ "name" := VStr "gold" ]})
             (VStr "somebody-else")).
    + vm_compute. repeat constructor.
    + reflexivity.
    + reflexivity.
Defined.

(** ** One response per request *)

Ltac last_event :=
  first [ exists []; split; reflexivity
        | eexists [_]; split; reflexivity
        | eexists [_; _]; split; reflexivity
        | eexists [_; _; _]; split; reflexivity ].


(** Picks the row of a handler in a table of pairs. *)
Ltac pick_row H :=
  repeat (apply elem_of_cons in H as [H|H]; [injection H as -> ->|]);
  [..|by apply elem_of_nil in H].

Ltac all_of :=
  repeat (apply Forall_cons; split); [..|by apply Forall_nil].

Ltac one_of :=
  by repeat first [apply list_elem_of_here | apply list_elem_of_further].
(** X1: every exported handler but [partialUpdateMetal] sends exactly one
    response on a run that returns, it is the value the handler returns,
    and it is the last thing the handler does: no collaborator is called
    after the response.  A run that throws has sent no response. *)
Theorem one_response_then_return (h : handler) (w : world) (r : request) :
  h ∈ returning_handlers ->
  (forall resp,
     (run h w r).1 = Done resp ->
     exists before : list event,
       trace (run h w r).2 = (before ++ [Responded resp])%list /\ responses before = [])
  /\ (forall e, (run h w r).1 = Raised e -> responses (trace (run h w r).2) = []).
Proof.
  intros Hh. destruct (run h w r) as [res [r' t]] eqn:Hrun. cbn [fst snd trace].
  unfold returning_handlers in Hh. pick Hh.
  all: exec_any; split_on Hrun.
  all: split; [intros resp Hr; simplify_eq; last_event | by intros e He; simplify_eq].
Qed.

Lemma one_response_then_return_witness :
  exists before : list event,
    trace (run getMetal empty_db lookup_request).2 =
      (before ++ [Responded (Response recordNotFound VUndef)])%list
    /\ responses before = [].
Proof.
  assert (Hin : getMetal ∈ returning_handlers)
    by (unfold returning_handlers; repeat constructor).
  destruct (one_response_then_return getMetal empty_db lookup_request Hin) as [Hone _].
  apply Hone. reflexivity.
Defined.

(** X2: [partialUpdateMetal] does not stop after the [badRequest] it sends
    for an absent [req.params.id]: when the request has a body and a user,
    and the collaborators throw nothing but errors, it goes on to the
    validator and sends a second response, which is the one it returns. *)
Theorem partialUpdateMetal_answers_twice (w : world) (r : request) :
  JS.nullish (params r) = false ->
  JS.truthy (JS.own (params r) "id") = false ->
  JS.nullish (body r) = false ->
  JS.nullish (user r) = false ->
  (forall c error, answer w c = Throws error -> JS.nullish error = false) ->
  exists verdict second,
    (run partialUpdateMetal w r).1 = Done second
    /\ responses (trace (run partialUpdateMetal w r).2) =
         [Response badRequest id_required; second]
    /\ Called (validateParamsWithJoi
                 (VObj (<["updatedBy" := JS.own (user r) "id"]>
                          (JS.spread (JS.remove (body r) "addedBy"))))
                 updateSchemaKeys) verdict
         ∈ trace (run partialUpdateMetal w r).2.
Proof.
  intros Hp Hid Hb Hu Hw.
  destruct (run partialUpdateMetal w r) as [res [r' t]] eqn:Hrun. cbn [fst snd trace].
  exec_any. split_on Hrun.
  all: bools; try congruence.
  all: try match goal with
       | H : answer _ _ = Throws ?e, Hn : JS.nullish ?e = true |- _ =>
           by rewrite (Hw _ _ H) in Hn
       end.
  all: eexists _, _; split; [reflexivity|]; split; [reflexivity|].
  all: apply list_elem_of_In; simpl; auto.
Qed.

Lemma partialUpdateMetal_answers_twice_witness :
  exists verdict second,
    (run partialUpdateMetal storing_db no_id_request).1 = Done second
    /\ responses (trace (run partialUpdateMetal storing_db no_id_request).2) =
         [Response badRequest id_required; second]
    /\ Called (validateParamsWithJoi
                 (VObj (<["updatedBy" := JS.own (user no_id_request) "id"]>
                          (JS.spread (JS.remove (body no_id_request) "addedBy"))))
                 updateSchemaKeys) verdict
         ∈ trace (run partialUpdateMetal storing_db no_id_request).2.
Proof.
  apply partialUpdateMetal_answers_twice; try reflexivity.
  intros c error. destruct c; cbn; intros H; by simplify_eq.
Defined.

(** ** What a run does at most *)

(** X3: no exported handler calls [dbService] or [deleteDependentService]
    more than once in a run, and none calls the validator more than
    once. *)
Theorem at_most_one_persistence_call (h : handler) (w : world) (r : request) :
  h ∈ module_exports ->
  length (List.filter is_persistence (calls (trace (run h w r).2))) <= 1
  /\ length (List.filter is_validation (calls (trace (run h w r).2))) <= 1.
Proof.
  intros Hh. destruct (run h w r) as [res [r' t]] eqn:Hrun. cbn [fst snd trace].
  unfold module_exports in Hh. pick Hh.
  all: exec_any; split_on Hrun; cbn; lia.
Qed.

Lemma at_most_one_persistence_call_witness :
  length (List.filter is_persistence
            (calls (trace (run addMetal storing_db create_request).2))) <= 1
  /\ length (List.filter is_validation
               (calls (trace (run addMetal storing_db create_request).2))) <= 1.
Proof.
  apply at_most_one_persistence_call. unfold module_exports. repeat constructor.
Defined.

(** X4: the response categories of each handler.  Whatever the request and
    the collaborators, [addMetal] and [getMetalCount] send nothing but
    [success], [validationError] and [internalServerError];
    [bulkInsertMetal] nothing but [success], [badRequest] and
    [internalServerError]; [bulkUpdateMetal] nothing but [success],
    [recordNotFound] and [internalServerError]; the lookups and
    [updateMetal] never send [badRequest]; the delete handlers never send
    [validationError]. *)
Theorem handlers_answer_within (h : handler) (ks : list category)
    (w : world) (r : request) :
  (h, ks) ∈ answers ->
  Forall (fun resp => kind resp ∈ ks) (responses (trace (run h w r).2)).
Proof.
  intros Hh. destruct (run h w r) as [res [r' t]] eqn:Hrun. cbn [fst snd trace].
  unfold answers in Hh. pick_row Hh.
  all: exec_any; split_on Hrun; cbn; all_of; one_of.
Qed.

Lemma handlers_answer_within_witness :
  Forall (fun resp => kind resp ∈ [success; validationError; internalServerError])
    (responses (trace (run getMetalCount empty_db where_request).2)).
Proof.
  apply handlers_answer_within. unfold answers. repeat constructor.
Defined.

(** X5: no exported handler but [partialUpdateMetal] changes the request;
    [partialUpdateMetal] leaves [req.params] and [req.user] alone and
    changes [req.body] at most by deleting its [addedBy]. *)
Theorem request_left_alone (w : world) (r : request) :
  (forall h, h ∈ returning_handlers -> req (run h w r).2 = r)
  /\ params (req (run partialUpdateMetal w r).2) = params r
  /\ user (req (run partialUpdateMetal w r).2) = user r
  /\ (body (req (run partialUpdateMetal w r).2) = body r
      \/ body (req (run partialUpdateMetal w r).2) = JS.remove (body r) "addedBy").
Proof.
  split.
  - intros h Hh. destruct (run h w r) as [res [r' t]] eqn:Hrun. cbn [fst snd req].
    unfold returning_handlers in Hh. pick Hh.
    all: exec_any; split_on Hrun; done.
  - destruct (run partialUpdateMetal w r) as [res [r' t]] eqn:Hrun. cbn [fst snd req].
    exec_any; split_on Hrun; cbn; auto.
Qed.

Lemma request_left_alone_witness :
  req (run deleteManyMetal no_dependents ids_request).2 = ids_request.
Proof.
  destruct (request_left_alone no_dependents ids_request) as [Hsame _].
  apply Hsame. unfold returning_handlers. repeat constructor.
Defined.

(** ** What is stored was validated *)

(** X6: what the validating handlers hand on was accepted by the
    validator.  The update document [updateMetal] and [partialUpdateMetal]
    give to [dbService.updateOne] is the very payload the validator
    accepted; the payload [addMetal] gives to the [Metal] constructor is
    the accepted payload with [addedBy] set; and [findAllMetal] and
    [getMetalCount] call [dbService] only after the validator accepted
    [req.body]. *)
Theorem validated_before_persisted (w : world) (r : request) :
  (forall h query data o,
     h ∈ [updateMetal; partialUpdateMetal] ->
     Called (dbService_updateOne query data) o ∈ trace (run h w r).2 ->
     exists verdict,
       Called (validateParamsWithJoi data updateSchemaKeys) (Returns verdict)
         ∈ trace (run h w r).2
       /\ JS.truthy (JS.own verdict "isValid") = true)
  /\ (forall data o,
     Called (new_Metal data) o ∈ trace (run addMetal w r).2 ->
     exists accepted verdict,
       Called (validateParamsWithJoi (VObj accepted) schemaKeys) (Returns verdict)
         ∈ trace (run addMetal w r).2
       /\ JS.truthy (JS.own verdict "isValid") = true
       /\ data = VObj (<["addedBy" := JS.own (user r) "id"]> accepted))
  /\ (forall h c o,
     h ∈ [findAllMetal; getMetalCount] ->
     is_dbService c = true ->
     Called c o ∈ trace (run h w r).2 ->
     exists model verdict,
       Called (validateFilterWithJoi (body r) findFilterKeys model) (Returns verdict)
         ∈ trace (run h w r).2
       /\ JS.truthy (JS.own verdict "isValid") = true).
Proof.
  split; [|split].
  - intros h query data o Hh Hin. pick Hh.
    all: exec_any; split_on Hin; mem; simplify_eq; bools.
    all: eexists; split; [|eassumption].
    all: apply list_elem_of_In; simpl; auto.
  - intros data o Hin. exec_any; split_on Hin; mem; simplify_eq; bools.
    all: eexists _, _; split; [|split; [eassumption|reflexivity]].
    all: apply list_elem_of_In; simpl; auto.
  - intros h c o Hh Hc Hin. pick Hh.
    all: exec_any; split_on Hin; mem; simplify_eq; bools.
    all: eexists _, _; split; [|eassumption].
    all: apply list_elem_of_In; simpl; auto.
Qed.

Lemma validated_before_persisted_witness :
  exists verdict,
    Called (validateParamsWithJoi
              (VObj (<["updatedBy" := VStr "admin-1"]> (JS.spread forged_metal)))
              updateSchemaKeys) (Returns verdict)
      ∈ trace (run updateMetal storing_db forged_update).2
    /\ JS.truthy (JS.own verdict "isValid") = true.
Proof.
  destruct (validated_before_persisted storing_db forged_update) as (Hupdate & _ & _).
  apply (Hupdate updateMetal (obj1 "_id" sample_id)
           (VObj (<["updatedBy" := VStr "admin-1"]> (JS.spread forged_metal)))
           (Returns (VObj (<["updatedBy" := VStr "admin-1"]> (JS.spread forged_metal))))).
  - repeat constructor.
  - vm_compute. repeat constructor.
Defined.

(** ** Counting *)

(** X7: when the validator accepts the filter of a [getMetalCount] request
    that has a body, the handler makes one call to [dbService.count], with
    a copy of [req.body.where] when that is an object and the empty filter
    otherwise, and returns the count in a [success] response whatever it
    is: a count of [0] is a [success], not a [recordNotFound]. *)
Theorem getMetalCount_counts (w : world) (r : request) (accepted : value) :
  answer w (validateFilterWithJoi (body r) findFilterKeys false) = Returns accepted ->
  JS.truthy (JS.own accepted "isValid") = true ->
  JS.nullish (body r) = false ->
  calls (trace (run getMetalCount w r).2) =
    [ validateFilterWithJoi (body r) findFilterKeys false;
      dbService_count (VObj (request_where r)) ]
  /\ (forall n,
        answer w (dbService_count (VObj (request_where r))) = Returns n ->
        (run getMetalCount w r).1 =
          Done (Response success (obj1 "data" (obj1 "count" n))))
  /\ (forall o, JS.own (body r) "where" = VObj o -> request_where r = o).
Proof.
  intros Hv Hok Hb. unfold request_where.
  assert (Hn : JS.nullish accepted = false).
  { destruct (JS.nullish accepted) eqn:Hn; [|done].
    by rewrite (own_nullish _ _ Hn) in Hok. }
  split; [|split].
  - exec_any. replay. by cases.
  - intros n. exec_any. replay.
    destruct (JS.isObjectNotNull (JS.own (body r) "where")); simpl.
    all: intros Hcount; by rewrite Hcount.
  - intros o Ho. by rewrite Ho.
Qed.

Lemma getMetalCount_counts_witness :
  (run getMetalCount empty_db where_request).1 =
    Done (Response success (obj1 "data" (obj1 "count" (VNum 0)))).
Proof.
  destruct (getMetalCount_counts empty_db where_request (obj1 "isValid" (VBool true)))
    as (_ & Hres & _); [reflexivity | reflexivity | reflexivity |].
  apply Hres. reflexivity.
Defined.

(** ** Bulk update *)

(** X8: [bulkUpdateMetal] rejects no input.  Without a body it calls
    [dbService.updateMany] with the empty filter and the empty update;
    whenever [req.body.data] is an object the update handed on carries
    [updatedBy] equal to [req.user.id]; and the number [updateMany] returns
    is answered with [success] and [{ count }] when it is truthy and with
    [recordNotFound] when it is falsy, as [0] is. *)
Theorem bulkUpdateMetal_updates (w : world) (r : request) :
  (JS.truthy (body r) = false ->
     calls (trace (run bulkUpdateMetal w r).2) =
       [dbService_updateMany (VObj ∅) (VObj ∅)])
  /\ (forall filter data o,
     Called (dbService_updateMany filter data) o ∈ trace (run bulkUpdateMetal w r).2 ->
     JS.isObjectNotNull (JS.own (body r) "data") = true ->
     JS.own data "updatedBy" = JS.own (user r) "id")
  /\ (forall filter data n,
     Called (dbService_updateMany filter data) (Returns n)
       ∈ trace (run bulkUpdateMetal w r).2 ->
     (run bulkUpdateMetal w r).1 =
       Done (if JS.truthy n then Response success (obj1 "data" (obj1 "count" n))
             else Response recordNotFound VUndef)).
Proof.
  split; [|split].
  - intros Hb. exec_any. rewrite Hb. simpl. by cases.
  - intros filter data o Hin Hd. exec_any. split_on Hin; mem; simplify_eq.
    all: try match goal with
         | Hf : JS.truthy ?b = false, Hd : JS.isObjectNotNull (JS.own ?b "data") = true
           |- _ => by rewrite (own_falsy b "data" Hf) in Hd
         end.
    all: try congruence.
    all: apply own_insert.
  - intros filter data n Hin. exec_any. split_on Hin; mem; simplify_eq; bools.
    all: by repeat match goal with H : JS.truthy _ = _ |- _ => rewrite H end.
Qed.

Lemma bulkUpdateMetal_updates_witness :
  calls (trace (run bulkUpdateMetal storing_db bodyless_request).2) =
    [dbService_updateMany (VObj ∅) (VObj ∅)]
  /\ JS.own (VObj (<["updatedBy" := VStr "admin-1"]> {[ "price" := VNum 10 ]})) "updatedBy"
     = JS.own (user bulk_update_request) "id".
Proof.
  destruct (bulkUpdateMetal_updates storing_db bodyless_request) as (Hempty & _ & _).
  destruct (bulkUpdateMetal_updates storing_db bulk_update_request) as (_ & Hstamp & _).
  split; [by apply Hempty|].
  apply (Hstamp (obj1 "name" (VStr "gold"))
           (VObj (<["updatedBy" := VStr "admin-1"]> {[ "price" := VNum 10 ]}))
           (Returns (VNum 1))).
  - vm_compute. repeat constructor.
  - reflexivity.
Defined.

(** ** Deleting *)

(** X9: a soft delete writes nothing the client chose.  The only call
    [softDeleteMetal] and [softDeleteManyMetal] make is
    [deleteDependentService.softDeleteMetal], and the update they hand it
    is always [{ isDeleted: true, updatedBy: req.user.id }]; the query is
    [{ _id: req.params.id }] for the first and
    [{ _id: { $in: req.body.ids } }] for the second. *)
Theorem soft_delete_writes_fixed_update (w : world) (r : request) :
  Forall (fun c => c = deleteDependent_softDeleteMetal
                        (obj1 "_id" (JS.own (params r) "id")) (soft_delete_body r))
    (calls (trace (run softDeleteMetal w r).2))
  /\ Forall (fun c => c = deleteDependent_softDeleteMetal
                        (obj1 "_id" (obj1 "$in" (JS.own (body r) "ids")))
                        (soft_delete_body r))
    (calls (trace (run softDeleteManyMetal w r).2)).
Proof.
  unfold soft_delete_body. split.
  - destruct (run softDeleteMetal w r) as [res [r' t]] eqn:Hrun. cbn [fst snd trace].
    exec_any; split_on Hrun; cbn; by all_of.
  - destruct (run softDeleteManyMetal w r) as [res [r' t]] eqn:Hrun. cbn [fst snd trace].
    exec_any; split_on Hrun; cbn; by all_of.
Qed.

(** X10: without the warning flag a delete deletes.  When
    [req.body.isWarning] is falsy and the identifier is there
    ([req.params.id] truthy for [deleteMetal], [req.body.ids] a non-empty
    array for [deleteManyMetal]), the only call is
    [deleteDependentService.deleteMetal] with the query of the identifier,
    [countMetal] is not called, and the result is answered with [success]
    when it is truthy and with [recordNotFound] when it is falsy. *)
Theorem delete_without_warning_deletes :
  (forall w r,
     JS.truthy (JS.own (params r) "id") = true ->
     JS.nullish (body r) = false ->
     JS.truthy (JS.own (body r) "isWarning") = false ->
     let query := obj1 "_id" (JS.own (params r) "id") in
     calls (trace (run deleteMetal w r).2) = [deleteDependent_deleteMetal query]
     /\ forall n, answer w (deleteDependent_deleteMetal query) = Returns n ->
          (run deleteMetal w r).1 = Done (found_or_not n))
  /\ (forall w r,
     nonempty_array (JS.own (body r) "ids") = true ->
     JS.truthy (JS.own (body r) "isWarning") = false ->
     let query := obj1 "_id" (obj1 "$in" (JS.own (body r) "ids")) in
     calls (trace (run deleteManyMetal w r).2) = [deleteDependent_deleteMetal query]
     /\ forall n, answer w (deleteDependent_deleteMetal query) = Returns n ->
          (run deleteManyMetal w r).1 = Done (found_or_not n)).
Proof.
  split.
  - intros w r Hid Hb Hw query. subst query.
    assert (Hp : JS.nullish (params r) = false).
    { destruct (JS.nullish (params r)) eqn:Hn; [|done].
      by rewrite (own_nullish _ _ Hn) in Hid. }
    exec_any. replay. unfold found_or_not. split.
    + by cases.
    + intros n Hn. rewrite Hn. cbn. by destruct (JS.truthy n).
  - intros w r Hids Hw query. subst query.
    assert (Hb : JS.nullish (body r) = false).
    { destruct (JS.nullish (body r)) eqn:Hn; [|done].
      by rewrite (own_nullish _ _ Hn) in Hids. }
    destruct (JS.own (body r) "ids") as [| | | | |[|x l]|] eqn:Hi; try done.
    exec_any. replay. rewrite Hi. simpl. rewrite length_not_lt_1. replay.
    unfold found_or_not. split.
    + by cases.
    + intros n Hn. rewrite Hn. cbn. by destruct (JS.truthy n).
Qed.

Lemma delete_without_warning_deletes_witness :
  calls (trace (run deleteMetal no_dependents plain_delete_request).2) =
    [deleteDependent_deleteMetal (obj1 "_id" sample_id)]
  /\ (run deleteMetal no_dependents plain_delete_request).1 =
       Done (Response success (obj1 "data" (obj1 "deletedCount" (VNum 1)))).
Proof.
  destruct delete_without_warning_deletes as [Hone _].
  destruct (Hone no_dependents plain_delete_request eq_refl eq_refl eq_refl)
    as [Hcalls Hres].
  split; [exact Hcalls | exact (Hres (obj1 "deletedCount" (VNum 1)) eq_refl)].
Defined.

(** ** The user of the request *)

(** X11: the lookups, the count and the hard deletes never read
    [req.user]: with any other user, or none, [findAllMetal], [getMetal],
    [getMetalCount], [deleteMetal] and [deleteManyMetal] return the same
    response and do the same things.  A hard delete records no actor. *)
Theorem anonymous_handlers_ignore_user (h : handler) (w : world) (r : request)
    (u : value) :
  h ∈ anonymous_handlers ->
  (run h w (with_user u r)).1 = (run h w r).1
  /\ trace (run h w (with_user u r)).2 = trace (run h w r).2.
Proof.
  intros Hh. destruct (run h w r) as [res [r' t]] eqn:Hrun. cbn [fst snd trace].
  unfold anonymous_handlers in Hh. unfold with_user. pick Hh.
  all: exec_any; split_on Hrun; replay; done.
Qed.

Lemma anonymous_handlers_ignore_user_witness :
  (run deleteMetal no_dependents (with_user VUndef plain_delete_request)).1 =
    (run deleteMetal no_dependents plain_delete_request).1
  /\ trace (run deleteMetal no_dependents (with_user VUndef plain_delete_request)).2 =
       trace (run deleteMetal no_dependents plain_delete_request).2.
Proof.
  apply anonymous_handlers_ignore_user. unfold anonymous_handlers. repeat constructor.
Defined.

(** X12: the handlers that stamp what they write ([addMetal],
    [bulkInsertMetal], [updateMetal], [partialUpdateMetal],
    [softDeleteMetal], [softDeleteManyMetal]) write nothing for a request
    without a user: when [req.user] is [undefined] or [null] they make no
    call to [dbService] or [deleteDependentService]. *)
Theorem no_user_no_write (h : handler) (w : world) (r : request) :
  h ∈ stamping_handlers ->
  JS.nullish (user r) = true ->
  no_persistence (trace (run h w r).2).
Proof.
  intros Hh Hu. destruct (run h w r) as [res [r' t]] eqn:Hrun. cbn [fst snd trace].
  unfold stamping_handlers in Hh. pick Hh.
  all: exec_any; split_on Hrun; try congruence; js_absurd.
  all: try match goal with
       | Hf : JS.truthy ?b = false, Hd : JS.own ?b "data" = _ |- _ =>
           by rewrite (own_falsy b "data" Hf) in Hd
       end.
  all: unfold no_persistence; cbn; by all_of.
Qed.

Lemma no_user_no_write_witness :
  no_persistence (trace (run updateMetal storing_db userless_request).2).
Proof.
  apply no_user_no_write; [|reflexivity].
  unfold stamping_handlers. repeat constructor.
Defined.

(** ** The documents a call addresses *)

(** X13: the handlers that take [req.params.id] address nothing but the
    document of that identifier: every query [getMetal], [updateMetal],
    [partialUpdateMetal], [softDeleteMetal] and [deleteMetal] hand to a
    collaborator is [{ _id: req.params.id }]; every query
    [deleteManyMetal] and [softDeleteManyMetal] hand on is
    [{ _id: { $in: req.body.ids } }]. *)
Theorem handlers_address_the_identifier (w : world) (r : request) :
  (forall h,
     h ∈ id_handlers ->
     Forall (fun c => forall q, addressed c = Some q ->
                        q = obj1 "_id" (JS.own (params r) "id"))
       (calls (trace (run h w r).2)))
  /\ (forall h,
     h ∈ bulk_id_handlers ->
     Forall (fun c => forall q, addressed c = Some q ->
                        q = obj1 "_id" (obj1 "$in" (JS.own (body r) "ids")))
       (calls (trace (run h w r).2))).
Proof.
  split.
  - intros h Hh. destruct (run h w r) as [res [r' t]] eqn:Hrun. cbn [fst snd trace].
    unfold id_handlers in Hh. pick Hh.
    all: exec_any; split_on Hrun; cbn; all_of.
    all: intros q Hq; cbn in Hq; by simplify_eq.
  - intros h Hh. destruct (run h w r) as [res [r' t]] eqn:Hrun. cbn [fst snd trace].
    unfold bulk_id_handlers in Hh. pick Hh.
    all: exec_any; split_on Hrun; cbn; all_of.
    all: intros q Hq; cbn in Hq; by simplify_eq.
Qed.

Lemma handlers_address_the_identifier_witness :
  Forall (fun c => forall q, addressed c = Some q ->
                     q = obj1 "_id" (JS.own (params forged_update) "id"))
    (calls (trace (run updateMetal storing_db forged_update).2)).
Proof.
  destruct (handlers_address_the_identifier storing_db forged_update) as [Hid _].
  apply Hid. unfold id_handlers. repeat constructor.
Defined.

(** ** The count of a bulk insert *)

(** X14: the [success] response of [bulkInsertMetal] counts what
    [dbService.create] returned: the length of the array it returned, and
    [0] when it returned a falsy value. *)
Theorem bulkInsertMetal_reports_count (w : world) (r : request) :
  (forall docs created,
     Called (dbService_create docs) (Returns (VArr created))
       ∈ trace (run bulkInsertMetal w r).2 ->
     (run bulkInsertMetal w r).1 =
       Done (Response success
               (obj1 "data" (obj1 "count" (VNum (Z.of_nat (length created)))))))
  /\ (forall docs nothing,
     Called (dbService_create docs) (Returns nothing)
       ∈ trace (run bulkInsertMetal w r).2 ->
     JS.truthy nothing = false ->
     (run bulkInsertMetal w r).1 =
       Done (Response success (obj1 "data" (obj1 "count" (VNum 0))))).
Proof.
  split.
  - intros docs created Hin. exec_any. split_on Hin; mem; simplify_eq; replay.
    all: unfold JS.own in *; cbn in *; by destruct created.
  - intros docs nothing Hin Hf. exec_any. split_on Hin; mem; simplify_eq; replay.
    all: congruence.
Qed.

Lemma bulkInsertMetal_reports_count_witness :
  (run bulkInsertMetal storing_db bulk_request).1 =
    Done (Response success (obj1 "data" (obj1 "count" (VNum 1)))).
Proof.
  destruct (bulkInsertMetal_reports_count storing_db bulk_request) as [Hcount _].
  apply (Hcount (VArr [VObj (<["addedBy" := VStr "admin-1"]> {[ "price" := VStr "free" ]})])
           [VObj (<["addedBy" := VStr "admin-1"]> {[ "price" := VStr "free" ]})]).
  vm_compute. repeat constructor.
Defined.

(** ** A request without a body *)

(** X15: what a request without a body meets.  [addMetal] treats a falsy
    [req.body] as the empty document: it does exactly what it does for
    [{}].  [updateMetal] validates and stores the update
    [{ updatedBy: req.user.id }].  [partialUpdateMetal] calls no
    collaborator: deleting [addedBy] from the absent body throws, and the
    answer is [internalServerError] with the message of that error. *)
Theorem absent_body (w : world) (r : request) :
  (JS.truthy (body r) = false ->
     (run addMetal w r).1 = (run addMetal w (with_body (VObj ∅) r)).1
     /\ trace (run addMetal w r).2 = trace (run addMetal w (with_body (VObj ∅) r)).2)
  /\ (JS.nullish (body r) = true ->
      Forall (fun c =>
                c = validateParamsWithJoi (obj1 "updatedBy" (JS.own (user r) "id"))
                      updateSchemaKeys
                \/ exists query,
                     c = dbService_updateOne query (obj1 "updatedBy" (JS.own (user r) "id")))
        (calls (trace (run updateMetal w r).2)))
  /\ (JS.nullish (body r) = true ->
      JS.nullish (params r) = false ->
      (run partialUpdateMetal w r).1 =
        Done (Response internalServerError
                (obj1 "message"
                   (VStr (type_error_message w (CannotDelete (body r) "addedBy")))))
      /\ calls (trace (run partialUpdateMetal w r).2) = []).
Proof.
  split; [|split].
  - intros Hb.
    destruct (run addMetal w (with_body (VObj ∅) r)) as [res [r' t]] eqn:Hrun.
    cbn [fst snd trace]. unfold with_body in Hrun. exec_any. rewrite Hb.
    simpl in *. split_on Hrun; replay; done.
  - intros Hb.
    assert (Hs : JS.spread (body r) = ∅) by (by destruct (body r)).
    destruct (run updateMetal w r) as [res [r' t]] eqn:Hrun. cbn [fst snd trace].
    exec_any. rewrite Hs in Hrun. split_on Hrun; cbn; all_of.
    all: first [ by left | right; by eexists ].
  - intros Hb Hp. exec_any. rewrite Hp. simpl.
    destruct (negb (JS.truthy (JS.own (params r) "id"))); simpl.
    all: rewrite Hb; simpl; by rewrite ?nullish_TypeError, ?own_TypeError.
Qed.

Lemma absent_body_witness :
  (run addMetal storing_db bodyless_request).1 =
    (run addMetal storing_db (with_body (VObj ∅) bodyless_request)).1
  /\ calls (trace (run partialUpdateMetal storing_db bodyless_request).2) = [].
Proof.
  destruct (absent_body storing_db bodyless_request) as (Hadd & _ & Hpartial).
  split.
  - by apply Hadd.
  - by apply Hpartial.
Defined.

(** ** The message of a validation error *)

(** X16: the [validationError] response carries the validator's message.
    When the validator reports the payload invalid with a message that is
    a string, [addMetal], [updateMetal] and [partialUpdateMetal] answer
    with [{ message: "Invalid values in parameters, " + message }], and
    [findAllMetal] and [getMetalCount] with the message alone. *)
Theorem validation_error_message (w : world) (r : request) :
  (forall h c verdict text,
     h ∈ params_validating_handlers ->
     Called c (Returns verdict) ∈ trace (run h w r).2 ->
     is_validation c = true ->
     JS.truthy (JS.own verdict "isValid") = false ->
     JS.own verdict "message" = VStr text ->
     (run h w r).1 =
       Done (Response validationError
               (obj1 "message" (VStr ("Invalid values in parameters, " ++ text)))))
  /\ (forall h c verdict text,
     h ∈ filter_validating_handlers ->
     Called c (Returns verdict) ∈ trace (run h w r).2 ->
     is_validation c = true ->
     JS.truthy (JS.own verdict "isValid") = false ->
     JS.own verdict "message" = VStr text ->
     (run h w r).1 =
       Done (Response validationError (obj1 "message" (VStr text)))).
Proof.
  split.
  - intros h c verdict text Hh Hin Hc Hv Hm.
    unfold params_validating_handlers in Hh. pick Hh.
    all: exec_any; split_on Hin; mem; simplify_eq/=; bools; try congruence.
    all: try (rewrite own_nullish in Hm by done; discriminate).
    all: by rewrite Hm.
  - intros h c verdict text Hh Hin Hc Hv Hm.
    unfold filter_validating_handlers in Hh. pick Hh.
    all: exec_any; split_on Hin; mem; simplify_eq/=; bools; try congruence.
    all: try (rewrite own_nullish in Hm by done; discriminate).
    all: by rewrite Hm.
Qed.

Lemma validation_error_message_witness :
  (run addMetal rejecting add_request).1 =
    Done (Response validationError
            (obj1 "message"
               (VStr "Invalid values in parameters, price must be a number"))).
Proof.
  destruct (validation_error_message rejecting add_request) as [Hparams _].
  assert (Hin : Called (validateParamsWithJoi malformed_metal schemaKeys)
                  (Returns (VObj (<["message" := VStr "price must be a number"]>
                                    {[ "isValid" := VBool false ]})))
                ∈ trace (run addMetal rejecting add_request).2)
    by (vm_compute; repeat constructor).
  assert (Hh : addMetal ∈ params_validating_handlers)
    by (unfold params_validating_handlers; repeat constructor).
  exact (Hparams addMetal _ _ "price must be a number" Hh Hin eq_refl eq_refl eq_refl).
Defined.
